(** * Kurumim WhatsApp bot: the conversation engine of [main.py]

    A shallow embedding of [process_whatsapp_message] (with
    [init_user_state], [get_task_prompt] and [get_completion_message]) and
    of the part of the webhook handler that turns a Meta message into the
    engine's arguments; further on, the webhook endpoints
    ([whatsapp_verify_webhook], [whatsapp_receive_message] over a model of
    the parsed JSON), [send_whatsapp_response] and
    [handle_incoming_whatsapp_message].

    Modelling choices:
    - Python [str] is [string] (bytes of the UTF-8 text).  [str.lower],
      [str.title] and [str.isdigit] are modelled on ASCII letters and digits;
      other bytes are left as they are.
    - a Python dict used as a record (the session, its [metadata]) is a Rocq
      record; [audio_urls], a dict whose insertion order is printed by the
      completion summary, is an association list; the global [user_states]
      dict is a [gmap string session].
    - the module-level collaborators ([asr_pipeline], [google_tts_client],
      [s3_client], [R2_ENDPOINT_URL_PUBLIC]) form a record [caps]; the
      answers of the network calls made during one turn form a record [io].
    - a Python exception is a constructor of [exn]; code that may raise
      returns a [result]. *)

From stdpp Require Import base gmap strings list.
From Stdlib Require Import Ascii String ZArith.
Open Scope string_scope.
Open Scope nat_scope.

(* ------------------------------------------------------------------ *)
(** ** Python values and exceptions *)

Inductive exn :=
| NameError
| AttributeError
| HTTPStatusError
| OtherError.

Inductive result (A : Type) :=
| Ok (a : A)
| Raise (e : exn).
Arguments Ok {A} a.
Arguments Raise {A} e.

(** [result] is a monad (stdpp's [x ← m; k] notation): an exception
    propagates. *)
Global Instance result_ret : MRet result := fun A a => Ok a.
Global Instance result_bind : MBind result :=
  fun A B k m => match m with Ok a => k a | Raise e => Raise e end.

(** Python truthiness of an optional string: [None] and [""] are false. *)
Definition truthy (o : option string) : bool :=
  match o with
  | Some s => negb (String.eqb s "")
  | None => false
  end.

(** [x == "lit"] on an optional string ([None == "lit"] is [False]). *)
Definition opt_eqb (o : option string) (lit : string) : bool :=
  match o with Some s => String.eqb s lit | None => false end.

(* ------------------------------------------------------------------ *)
(** ** String methods *)

Definition lower_char (c : ascii) : ascii :=
  let n := nat_of_ascii c in
  if (65 <=? n) && (n <=? 90) then ascii_of_nat (n + 32) else c.

Definition upper_char (c : ascii) : ascii :=
  let n := nat_of_ascii c in
  if (97 <=? n) && (n <=? 122) then ascii_of_nat (n - 32) else c.

Definition is_cased (c : ascii) : bool :=
  let n := nat_of_ascii c in
  ((65 <=? n) && (n <=? 90)) || ((97 <=? n) && (n <=? 122)).

Definition is_digit_char (c : ascii) : bool :=
  let n := nat_of_ascii c in (48 <=? n) && (n <=? 57).

(** [s.lower()] *)
Fixpoint lower (s : string) : string :=
  match s with
  | EmptyString => EmptyString
  | String c s' => String (lower_char c) (lower s')
  end.

(** [s.title()]: a cased letter is upper-cased when the previous character
    is uncased, lower-cased otherwise. *)
Fixpoint title_from (prev_cased : bool) (s : string) : string :=
  match s with
  | EmptyString => EmptyString
  | String c s' =>
      let c' := if prev_cased then lower_char c else upper_char c in
      String c' (title_from (is_cased c) s')
  end.

Definition title (s : string) : string := title_from false s.

(** [s.isdigit()]: non-empty and made of digits. *)
Fixpoint all_digits (s : string) : bool :=
  match s with
  | EmptyString => true
  | String c s' => is_digit_char c && all_digits s'
  end.

Definition isdigit (s : string) : bool :=
  negb (String.eqb s "") && all_digits s.

(** [int(s)] for a string of digits. *)
Fixpoint int_acc (acc : nat) (s : string) : nat :=
  match s with
  | EmptyString => acc
  | String c s' => int_acc (acc * 10 + (nat_of_ascii c - 48)) s'
  end.

Definition int (s : string) : nat := int_acc 0 s.

(** [str(n)] for a natural number, in decimal. *)
Fixpoint str_nat_fuel (fuel n : nat) (acc : string) : string :=
  match fuel with
  | O => acc
  | S fuel' =>
      let d := String (ascii_of_nat (48 + n mod 10)) acc in
      if n <? 10 then d else str_nat_fuel fuel' (n / 10) d
  end.

Definition str_nat (n : nat) : string := str_nat_fuel (S n) n "".

(** [s.replace(a, b)] for single characters. *)
Fixpoint replace_char (a b : ascii) (s : string) : string :=
  match s with
  | EmptyString => EmptyString
  | String c s' =>
      String (if Ascii.eqb c a then b else c) (replace_char a b s')
  end.

Definition underscore_to_space (s : string) : string :=
  replace_char "_"%char " "%char s.

(** [s.split('/')[-1]]: the text after the last ['/']. *)
Fixpoint after_last_slash (cur : string) (s : string) : string :=
  match s with
  | EmptyString => cur
  | String c s' =>
      if Ascii.eqb c "/"%char then after_last_slash "" s'
      else after_last_slash (cur ++ String c "") s'
  end.

Fixpoint has_char (a : ascii) (s : string) : bool :=
  match s with
  | EmptyString => false
  | String c s' => Ascii.eqb c a || has_char a s'
  end.

(** A double quote character, for the one prompt that quotes a sentence. *)
Definition dq : string := String (ascii_of_nat 34) "".

(** [x in [l1, l2, ...]] *)
Definition in_list (x : string) (l : list string) : bool :=
  existsb (String.eqb x) l.

(* ------------------------------------------------------------------ *)
(** ** The session ([user_states[state_key]]) *)

(** [user_state["metadata"]]. *)
Record session_metadata := mkMetadata {
  user_id : string;
  platform : string;
  username : string;
  name : option string;
  age : option nat;
  diagnosis : option string;
  smoking_status : option string;
  emotional_state : option nat;
  environment : option string;
  current_audio_task : option string;
  audio_urls : list (string * string)
}.

(** [user_state]: the Python dict with keys [stage], [metadata],
    [tasks_queue] and [interaction_mode] ([None] would be an unset mode). *)
Record session := mkSession {
  stage : string;
  metadata : session_metadata;
  tasks_queue : list string;
  interaction_mode : option string
}.

Definition set_stage (st : string) (s : session) : session :=
  mkSession st (metadata s) (tasks_queue s) (interaction_mode s).
Definition set_metadata (m : session_metadata) (s : session) : session :=
  mkSession (stage s) m (tasks_queue s) (interaction_mode s).
Definition set_tasks_queue (q : list string) (s : session) : session :=
  mkSession (stage s) (metadata s) q (interaction_mode s).
Definition set_interaction_mode (md : string) (s : session) : session :=
  mkSession (stage s) (metadata s) (tasks_queue s) (Some md).

Definition set_name (v : string) (m : session_metadata) : session_metadata :=
  mkMetadata (user_id m) (platform m) (username m) (Some v) (age m)
    (diagnosis m) (smoking_status m) (emotional_state m) (environment m)
    (current_audio_task m) (audio_urls m).
Definition set_age (v : nat) (m : session_metadata) : session_metadata :=
  mkMetadata (user_id m) (platform m) (username m) (name m) (Some v)
    (diagnosis m) (smoking_status m) (emotional_state m) (environment m)
    (current_audio_task m) (audio_urls m).
Definition set_diagnosis (v : string) (m : session_metadata) : session_metadata :=
  mkMetadata (user_id m) (platform m) (username m) (name m) (age m)
    (Some v) (smoking_status m) (emotional_state m) (environment m)
    (current_audio_task m) (audio_urls m).
Definition set_smoking_status (v : string) (m : session_metadata) : session_metadata :=
  mkMetadata (user_id m) (platform m) (username m) (name m) (age m)
    (diagnosis m) (Some v) (emotional_state m) (environment m)
    (current_audio_task m) (audio_urls m).
Definition set_emotional_state (v : nat) (m : session_metadata) : session_metadata :=
  mkMetadata (user_id m) (platform m) (username m) (name m) (age m)
    (diagnosis m) (smoking_status m) (Some v) (environment m)
    (current_audio_task m) (audio_urls m).
Definition set_environment (v : string) (m : session_metadata) : session_metadata :=
  mkMetadata (user_id m) (platform m) (username m) (name m) (age m)
    (diagnosis m) (smoking_status m) (emotional_state m) (Some v)
    (current_audio_task m) (audio_urls m).
Definition set_current_audio_task (v : option string) (m : session_metadata) : session_metadata :=
  mkMetadata (user_id m) (platform m) (username m) (name m) (age m)
    (diagnosis m) (smoking_status m) (emotional_state m) (environment m)
    v (audio_urls m).
Definition set_audio_urls (v : list (string * string)) (m : session_metadata) : session_metadata :=
  mkMetadata (user_id m) (platform m) (username m) (name m) (age m)
    (diagnosis m) (smoking_status m) (emotional_state m) (environment m)
    (current_audio_task m) v.

(** [d[k] = v] on an insertion-ordered dict: an existing key keeps its
    place, a new key goes last. *)
Fixpoint dict_set (k v : string) (d : list (string * string)) : list (string * string) :=
  match d with
  | [] => [(k, v)]
  | (k', v') :: d' =>
      if String.eqb k k' then (k, v) :: d' else (k', v') :: dict_set k v d'
  end.

(** [get_user_state_key("whatsapp", user_id)] *)
Definition get_user_state_key (platform : string) (uid : string) : string :=
  platform ++ "_" ++ uid.

(** [init_user_state]: the dict it stores and returns. *)
Definition init_user_state (uid uname : string) : session :=
  {| stage := "initial";
     metadata :=
       {| user_id := uid; platform := "whatsapp"; username := uname;
          name := None; age := None; diagnosis := None;
          smoking_status := None; emotional_state := None;
          environment := None; current_audio_task := None;
          audio_urls := [] |};
     tasks_queue := [];
     interaction_mode := Some "text" |}.

(* ------------------------------------------------------------------ *)
(** ** Prompts *)

Definition welcome_msg : string :=
  "Olá! Bem-vindo ao Kurumim. Como você gostaria de interagir? Por *texto* ou por *voz*?".

(** [get_task_prompt] *)
Definition get_task_prompt (task_type : string) : string :=
  if String.eqb task_type "silence" then
    "Para a primeira gravação, por favor, inspire fundo e grave cerca de 5 segundos de *silêncio* no ambiente onde você está. Isso nos ajuda a analisar o ruído de fundo. Pode começar quando estiver pronto!"
  else if String.eqb task_type "vogal_a" then
    "Ótimo! Inspire fundo. Quando estiver pronto, por favor, diga 'Aaaaaa' por cerca de 5 segundos em um tom normal e envie o áudio."
  else if String.eqb task_type "vogal_e" then
    "Excelente. Agora, vamos fazer o mesmo com a vogal 'E'. Inspire fundo. Quando estiver pronto, por favor, diga 'Eeeee' por cerca de 5 segundos em um tom normal e envie o áudio."
  else if String.eqb task_type "vogal_i" then
    "Perfeito! Para a próxima, inspire fundo. Quando estiver pronto, por favor, diga 'Iiiiiii' por cerca de 5 segundos em um tom normal e envie o áudio."
  else if String.eqb task_type "vogal_o" then
    "Quase lá! Para a vogal 'O', inspire fundo. Quando estiver pronto, por favor, diga 'Oooooo' por cerca de 5 segundos em um tom normal e envie o áudio."
  else if String.eqb task_type "fricativo_s" then
    "Muito bem! Agora, faremos um som diferente. Inspire fundo e, quando estiver pronto, emita o som de 'Sssssss' de forma contínua pelo máximo de tempo que conseguir, e envie o áudio."
  else if String.eqb task_type "fricativo_z" then
    "Perfeito. Agora, faremos o mesmo com o som de 'Z'. Inspire fundo e, quando estiver pronto, emita o som de 'Zzzzzzz' de forma contínua pelo máximo de tempo que conseguir, e envie o áudio."
  else if String.eqb task_type "sentence_read" then
    let sentence := "O peito do pé do Pedro é preto. A aranha arranha a jarra." in
    "Para a última tarefa, por favor, inspire fundo e leia a seguinte frase em voz alta de forma natural: "
      ++ dq ++ sentence ++ dq ++ ". Envie o áudio quando terminar."
  else "Tarefa de áudio desconhecida. Por favor, tente novamente.".

(** [f"{x}"] for an optional metadata value: [None] prints as "None". *)
Definition fmt_opt (o : option string) : string :=
  match o with Some s => s | None => "None" end.
Definition fmt_opt_nat (o : option nat) : string :=
  match o with Some n => str_nat n | None => "None" end.

(** The lines [f"- {task.replace('_', ' ').title()}: {url}"], in the
    dict's order, joined with newlines. *)
Definition audio_urls_formatted (d : list (string * string)) : list string :=
  map (fun '(task, url) => "- " ++ title (underscore_to_space task) ++ ": " ++ url) d.

Fixpoint join_nl (l : list string) : string :=
  match l with
  | [] => ""
  | [x] => x
  | x :: l' => x ++ "
" ++ join_nl l'
  end.

Definition nl : string := "
".

(** [audio_list_str]: the joined lines, or a fixed text when there are none. *)
Definition audio_list_str (d : list (string * string)) : string :=
  let fmt := audio_urls_formatted d in
  match fmt with [] => "Nenhum áudio de tarefa coletado." | _ => join_nl fmt end.

(** [get_completion_message]: [.title()] on a [None] smoking status raises
    [AttributeError]. *)
Definition get_completion_message (s : session) : result string :=
  let collected_data := metadata s in
  let audio_list_str := audio_list_str (audio_urls collected_data) in
  match smoking_status collected_data with
  | None => Raise AttributeError
  | Some smoking =>
      Ok ("Fantástico! Coletamos todas as suas amostras de voz. Sua contribuição é extremamente valiosa para a pesquisa de saúde do Kurumim."
        ++ nl ++ "Muito obrigado por participar! Seus dados e áudios foram salvos com sucesso."
        ++ nl ++ nl ++ "Detalhes da sua sessão (anonimizados para pesquisa):"
        ++ nl ++ "Nome/ID: " ++ fmt_opt (name collected_data)
        ++ nl ++ "Idade: " ++ fmt_opt_nat (age collected_data)
        ++ nl ++ "Diagnóstico: " ++ fmt_opt (diagnosis collected_data)
        ++ nl ++ "Status de Fumante: " ++ title smoking
        ++ nl ++ "Estado Emocional (1-5): " ++ fmt_opt_nat (emotional_state collected_data)
        ++ nl ++ "Ambiente da Gravação: " ++ fmt_opt (environment collected_data)
        ++ nl ++ nl ++ "Áudios de Tarefa Coletados (R2):" ++ nl ++ audio_list_str
        ++ nl ++ nl ++ "Para iniciar uma nova sessão, digite /start.")
  end.

(* ------------------------------------------------------------------ *)
(** ** Collaborators *)

(** The module-level clients, fixed when the module is imported. *)
Record caps := mkCaps {
  asr_pipeline : bool;
  google_tts_client : bool;
  s3_client : bool;
  R2_ENDPOINT_URL_PUBLIC : option string
}.

(** An HTTP request followed by [raise_for_status()]: a value, an
    [HTTPStatusError], or any other exception (network, JSON decoding). *)
Inductive fetch (A : Type) :=
| Fetched (a : A)
| FetchStatusError
| FetchFailed.
Arguments Fetched {A} a.
Arguments FetchStatusError {A}.
Arguments FetchFailed {A}.

(** What the network calls of one turn answer. *)
Record io := mkIo {
  (** [media_data.get("url")] and [media_data.get("mime_type")] *)
  io_media_info : fetch (option string * option string);
  (** the downloaded bytes *)
  io_download : fetch string;
  (** [await transcribe_audio(...)] *)
  io_transcript : option string;
  (** the file stem the upload would use *)
  io_message_id : string;
  (** whether [s3_client.put_object] succeeds *)
  io_upload_ok : bool
}.

Definition raise_fetch {A} (f : fetch A) : result A :=
  match f with
  | Fetched a => Ok a
  | FetchStatusError => Raise HTTPStatusError
  | FetchFailed => Raise OtherError
  end.

(** [upload_audio_bytes_to_r2]: the public URL, or [None]. *)
Definition upload_audio_bytes_to_r2 (c : caps) (x : io) (bucket_key : string) : option string :=
  if negb (s3_client c) || negb (truthy (R2_ENDPOINT_URL_PUBLIC c)) then None
  else if io_upload_ok x then Some (fmt_opt (R2_ENDPOINT_URL_PUBLIC c) ++ "/" ++ bucket_key)
  else None.

(* ------------------------------------------------------------------ *)
(** ** Name resolution inside [process_whatsapp_message] *)

(** The names a free identifier of [process_whatsapp_message] can resolve
    to: the function's parameters and the names it assigns, then the
    module's globals (imports, assignments, functions), then builtins
    (only those the function uses are listed). *)
Definition process_locals : list string :=
  ["user_id"; "username"; "user_input_text"; "user_audio_media_id";
   "raw_message_payload"; "state_key"; "user_state"; "current_stage";
   "interaction_mode"; "processed_text"; "media_info_url"; "media_headers";
   "client"; "media_response"; "media_data"; "download_url"; "content_type";
   "download_file_response"; "audio_data_bytes"; "file_format";
   "original_audio_filename"; "audio_category"; "r2_key_original";
   "public_original_audio_url"; "task_name"; "e"; "response_text";
   "task_type"; "consent_msg"; "next_task"].

Definition module_globals : list string :=
  ["os"; "load_dotenv"; "uuid"; "boto3"; "logging"; "io"; "tempfile";
   "json"; "asyncio"; "time"; "pipeline"; "torch"; "sf"; "np";
   "texttospeech"; "service_account"; "FastAPI"; "Request"; "Response";
   "Form"; "HTTPException"; "uvicorn"; "httpx"; "api_app"; "logger";
   "WEBHOOK_VERIFY_TOKEN"; "WHATSAPP_ACCESS_TOKEN";
   "WHATSAPP_PHONE_NUMBER_ID"; "WHATSAPP_API_BASE_URL";
   "WHISPER_MODEL_NAME"; "asr_pipeline"; "device"; "google_tts_client";
   "GOOGLE_TTS_API_KEY"; "GOOGLE_APPLICATION_CREDENTIALS"; "credentials";
   "R2_ACCESS_KEY_ID"; "R2_SECRET_ACCESS_KEY"; "R2_ACCOUNT_ID";
   "R2_BUCKET_NAME"; "s3_client"; "R2_ENDPOINT_URL_PRIVATE";
   "R2_ENDPOINT_URL_PUBLIC"; "user_states"; "upload_audio_to_r2";
   "upload_audio_bytes_to_r2"; "transcribe_audio";
   "generate_speech_from_text"; "get_user_state_key"; "init_user_state";
   "send_whatsapp_response"; "process_whatsapp_message";
   "get_task_prompt"; "get_completion_message"; "root";
   "whatsapp_verify_webhook"; "whatsapp_receive_message";
   "handle_incoming_whatsapp_message"; "port"].

Definition builtins_used : list string :=
  ["str"; "int"; "len"; "print"; "Exception"; "ImportError"].

Definition process_scope : list string :=
  process_locals ++ module_globals ++ builtins_used.

(** Evaluating a free name: [NameError] when nothing binds it. *)
Definition resolve_name (x : string) : result unit :=
  if in_list x process_scope then Ok tt else Raise NameError.

(* ------------------------------------------------------------------ *)
(** ** The stage dispatch (the [if current_stage == ...] chain) *)

(** [processed_text and processed_text.lower() == lit] *)
Definition text_is (pt : option string) (lit : string) : bool :=
  truthy pt && match pt with Some t => String.eqb (lower t) lit | None => false end.

(** [processed_text and processed_text.lower() in l] *)
Definition text_in (pt : option string) (l : list string) : bool :=
  truthy pt && match pt with Some t => in_list (lower t) l | None => false end.

(** [processed_text and processed_text.isdigit() and lo <= int(processed_text) <= hi] *)
Definition text_int_between (pt : option string) (lo hi : nat) : bool :=
  truthy pt && match pt with
               | Some t => isdigit t && (lo <=? int t) && (int t <=? hi)
               | None => false
               end.

Definition consent_msg (uname : string) : string :=
  "Olá, " ++ uname ++ "! Sua voz pode nos ajudar a desenvolver novas formas de monitorar a saúde. "
  ++ "As gravações serão usadas anonimamente e exclusivamente para pesquisa científica. "
  ++ "Você gostaria de participar e contribuir com sua voz? (Sim/Não)".

(** The task catalog written into [tasks_queue] at [awaiting_environment]. *)
Definition task_catalog : list string :=
  ["silence"; "vogal_a"; "vogal_e"; "vogal_i"; "vogal_o"; "fricativo_s";
   "fricativo_z"; "sentence_read"].

(** How the chain ends: the [/start] branches of [finished_tasks] and
    [finished] re-initialise the session and return at once; every other
    branch falls through to [user_states[state_key] = user_state]. *)
Inductive stage_out :=
| StageReset
| StageReply (reply : string) (s : session).

Definition with_meta (f : session_metadata -> session_metadata) (s : session) : session :=
  set_metadata (f (metadata s)) s.

(** Lines 426-598.  [audio] is the truthiness of [user_audio_media_id]. *)
Definition stage_dispatch (c : caps) (uname : string) (pt : option string)
    (audio : bool) (s : session) : result stage_out :=
  let current_stage := stage s in
  if String.eqb current_stage "initial" then
    if text_is pt "texto" then
      Ok (StageReply ("Modo de interação definido para *texto*." ++ nl ++ consent_msg uname)
            (set_stage "awaiting_consent" (set_interaction_mode "text" s)))
    else if text_is pt "voz" then
      if negb (asr_pipeline c) then
        Ok (StageReply "Desculpe, a *transcrição de voz (ASR)* está desativada devido a um erro na inicialização do modelo Whisper. Por favor, use o modo de texto."
              (set_stage "awaiting_interaction_mode" (set_interaction_mode "text" s)))
      else if negb (google_tts_client c) then
        Ok (StageReply "Desculpe, a *geração de voz (TTS)* está desativada devido a um erro nas credenciais ou inicialização do Google Cloud TTS. Por favor, use o modo de texto."
              (set_stage "awaiting_interaction_mode" (set_interaction_mode "text" s)))
      else if negb (s3_client c) || negb (truthy (R2_ENDPOINT_URL_PUBLIC c)) then
        Ok (StageReply "Desculpe, o serviço de *armazenamento de áudio (R2)* não está configurado para o upload de áudios. Por favor, use o modo de texto."
              (set_stage "awaiting_interaction_mode" (set_interaction_mode "text" s)))
      else
        Ok (StageReply ("Modo de interação definido para *voz*." ++ nl ++ consent_msg uname)
              (set_stage "awaiting_consent" (set_interaction_mode "voice" s)))
    else
      Ok (StageReply "Por favor, escolha 'texto' ou 'voz' para definir como vamos interagir." s)
  else if String.eqb current_stage "awaiting_consent" then
    if text_in pt ["sim"; "s"] then
      Ok (StageReply "Ótimo! Sua participação é muito importante. Para começar, qual o seu *nome* ou um *apelido* que gostaria de usar para esta pesquisa?"
            (set_stage "awaiting_name" s))
    else if text_in pt ["não"; "n"; "nao"] then
      Ok (StageReply "Entendi. Agradecemos seu interesse. Se mudar de ideia, pode digitar /start a qualquer momento."
            (set_stage "finished" s))
    else
      Ok (StageReply "Por favor, responda 'Sim' ou 'Não' para indicar seu consentimento." s)
  else if String.eqb current_stage "awaiting_name" then
    match pt with
    | Some t =>
        if truthy pt then
          Ok (StageReply ("Obrigado, " ++ t ++ "! Agora, qual a sua *idade* (apenas números)?")
                (set_stage "awaiting_age" (with_meta (set_name t) s)))
        else Ok (StageReply "Por favor, me diga seu nome ou apelido." s)
    | None => Ok (StageReply "Por favor, me diga seu nome ou apelido." s)
    end
  else if String.eqb current_stage "awaiting_age" then
    if text_int_between pt 5 120 then
      Ok (StageReply "Idade registrada! Você se considera *Fumante*, *Ex-fumante* ou *Não fumante*?"
            (set_stage "awaiting_smoking_status" (with_meta (set_age (int (fmt_opt pt))) s)))
    else
      Ok (StageReply "Por favor, digite sua idade em números (entre 5 e 120 anos)." s)
  else if String.eqb current_stage "awaiting_smoking_status" then
    if text_in pt ["fumante"; "ex-fumante"; "não fumante"; "nao fumante"] then
      Ok (StageReply "Obrigado. Você tem algum *diagnóstico de saúde* relevante (ex: Parkinson, Diabetes, Hipertensão, Saudável)?"
            (set_stage "awaiting_diagnosis" (with_meta (set_smoking_status (lower (fmt_opt pt))) s)))
    else
      Ok (StageReply "Por favor, responda com 'Fumante', 'Ex-fumante' ou 'Não fumante'." s)
  else if String.eqb current_stage "awaiting_diagnosis" then
    match pt with
    | Some t =>
        if truthy pt then
          Ok (StageReply "Entendido. Em uma escala de 1 a 5 (onde 1 é muito calmo e 5 é muito estressado), como você se sente *emocionalmente* agora?"
                (set_stage "awaiting_emotional_state" (with_meta (set_diagnosis t) s)))
        else Ok (StageReply "Por favor, digite seu diagnóstico de saúde (ou 'Saudável' se não tiver)." s)
    | None => Ok (StageReply "Por favor, digite seu diagnóstico de saúde (ou 'Saudável' se não tiver)." s)
    end
  else if String.eqb current_stage "awaiting_emotional_state" then
    if text_int_between pt 1 5 then
      Ok (StageReply "Quase lá! Por favor, descreva o *ambiente* onde você está gravando agora: (Ex: Silencioso, Pouco ruído, Barulhento)"
            (set_stage "awaiting_environment" (with_meta (set_emotional_state (int (fmt_opt pt))) s)))
    else
      Ok (StageReply "Por favor, use um número de 1 a 5 para descrever seu estado emocional." s)
  else if String.eqb current_stage "awaiting_environment" then
    match pt with
    | Some t =>
        if truthy pt then
          Ok (StageReply ("Perfeito! Seus dados iniciais foram registrados. Agora, vamos para a parte mais importante: a sua voz. "
                ++ "Por favor, encontre um local o mais silencioso possível. "
                ++ "Quando estiver pronto, vamos começar.")
                (set_stage "requesting_first_audio_task"
                   (set_tasks_queue task_catalog (with_meta (set_environment t) s))))
        else Ok (StageReply "Por favor, descreva o ambiente da gravação." s)
    | None => Ok (StageReply "Por favor, descreva o ambiente da gravação." s)
    end
  else if String.prefix "awaiting_audio_" current_stage then
    if audio then
      match current_audio_task (metadata s) with
      | None => Raise AttributeError
      | Some task_type =>
          let r := "Áudio da tarefa '" ++ underscore_to_space task_type ++ "' recebido e salvo! Obrigado." in
          match tasks_queue s with
          | next_task :: rest =>
              Ok (StageReply (r ++ nl ++ get_task_prompt next_task)
                    (set_stage ("awaiting_audio_" ++ next_task)
                       (with_meta (set_current_audio_task (Some next_task))
                          (set_tasks_queue rest s))))
          | [] =>
              summary ← get_completion_message s;
              Ok (StageReply (r ++ nl ++ summary)
                    (with_meta (set_current_audio_task None) (set_stage "finished_tasks" s)))
          end
      end
    else
      match current_audio_task (metadata s) with
      | None => Raise AttributeError
      | Some task_type =>
          Ok (StageReply ("Não recebi um áudio para a tarefa '" ++ underscore_to_space task_type
                          ++ "'. Por favor, grave e envie o áudio solicitado.") s)
      end
  else if String.eqb current_stage "requesting_first_audio_task" then
    match tasks_queue s with
    | next_task :: rest =>
        Ok (StageReply (get_task_prompt next_task)
              (set_stage ("awaiting_audio_" ++ next_task)
                 (with_meta (set_current_audio_task (Some next_task))
                    (set_tasks_queue rest s))))
    | [] =>
        summary ← get_completion_message s;
        Ok (StageReply summary (set_stage "finished_tasks" s))
    end
  else if String.eqb current_stage "finished_tasks" then
    if text_is pt "/start" then Ok StageReset
    else
      Ok (StageReply "Sua contribuição está completa! Muito obrigado por ajudar o Kurumim. Seus dados e áudios foram salvos com sucesso. Se quiser começar de novo, digite /start."
            (set_stage "finished" s))
  else if String.eqb current_stage "finished" then
    if text_is pt "/start" then Ok StageReset
    else
      Ok (StageReply "Sua sessão já foi concluída. Muito obrigado por sua participação. Para iniciar uma nova sessão, digite /start." s)
  else
    Ok (StageReply "" s).

(* ------------------------------------------------------------------ *)
(** ** The audio branch of voice mode (the [try] block, lines 341-399) *)

Inductive try_out :=
| TryReturn (reply : string)
| TryFallthrough (processed_text : option string) (s : session).

Definition voice_audio_try (c : caps) (x : io) (uid : string) (user_state : session)
    : result try_out :=
  media_data ← raise_fetch (io_media_info x);
  let download_url := fst media_data in
  let content_type :=
    match snd media_data with Some m => m | None => "application/octet-stream" end in
  if negb (truthy download_url) then
    Ok (TryReturn "Desculpe, tive um problema ao obter seu áudio. Poderia tentar novamente?")
  else
  audio_data_bytes ← raise_fetch (io_download x);
  let file_format :=
    if has_char "/"%char content_type then after_last_slash "" content_type else "ogg" in
  let cur := current_audio_task (metadata user_state) in
  let transcribed : sum string (option string) :=
    if negb (opt_eqb cur "silence") then
      if truthy (io_transcript x) then inr (io_transcript x)
      else inl "Desculpe, não consegui entender o que você disse. Poderia repetir?"
    else inr (Some "[Áudio de silêncio]") in
  match transcribed with
  | inl r => Ok (TryReturn r)
  | inr processed_text =>
      if s3_client c && truthy (R2_ENDPOINT_URL_PUBLIC c) then
        (* [message.get('id', uuid.uuid4().hex)] *)
        _ ← resolve_name "message";
        let original_audio_filename := io_message_id x ++ "." ++ file_format in
        let audio_category :=
          if truthy cur then "task_" ++ fmt_opt cur else "received_message" in
        let r2_key_original :=
          "whatsapp_audios/" ++ uid ++ "/" ++ audio_category ++ "/" ++ original_audio_filename in
        match upload_audio_bytes_to_r2 c x r2_key_original with
        | Some url =>
            if truthy cur then
              Ok (TryFallthrough processed_text
                    (with_meta (set_audio_urls (dict_set (fmt_opt cur) url
                                                  (audio_urls (metadata user_state))))
                       user_state))
            else Ok (TryFallthrough processed_text user_state)
        | None => Ok (TryFallthrough processed_text user_state)
        end
      else Ok (TryFallthrough processed_text user_state)
  end.

(* ------------------------------------------------------------------ *)
(** ** [process_whatsapp_message] *)

Definition text_mode_audio_msg : string :=
  "Detectei que você está no modo de *texto*, mas enviou uma mensagem de *voz*. Por favor, use texto para interagir.".

(** The reply and the session it returns (or the exception that escapes),
    and the [user_states] dict afterwards. *)
Definition outcome : Type := (result (string * session) * gmap string session)%type.

(** The stage chain and the final [user_states[state_key] = user_state].
    The chain raises only before it mutates, so on an exception the stored
    session is the one the chain started from. *)
Definition run_dispatch (c : caps) (store : gmap string session) (state_key uid uname : string)
    (pt : option string) (audio : bool) (user_state : session) : outcome :=
  match stage_dispatch c uname pt audio user_state with
  | Raise e => (Raise e, <[state_key := user_state]> store)
  | Ok StageReset =>
      let s0 := init_user_state uid uname in
      (Ok (welcome_msg, s0), <[state_key := s0]> store)
  | Ok (StageReply r s') => (Ok (r, s'), <[state_key := s']> store)
  end.

Definition process_whatsapp_message (c : caps) (x : io) (store : gmap string session)
    (uid uname : string) (user_input_text user_audio_media_id : option string) : outcome :=
  let state_key := get_user_state_key "whatsapp" uid in
  let reset :=
    let s0 := init_user_state uid uname in
    (Ok (welcome_msg, s0), <[state_key := s0]> store) in
  match store !! state_key with
  | None => reset
  | Some user_state =>
    if text_is user_input_text "/start" then reset else
    let current_stage := stage user_state in
    let mode := interaction_mode user_state in
    let audio := truthy user_audio_media_id in
    if opt_eqb mode "voice" && audio && asr_pipeline c && s3_client c then
      match voice_audio_try c x uid user_state with
      | Raise HTTPStatusError =>
          (Ok ("Desculpe, tive um problema ao baixar seu áudio. Poderia tentar novamente?", user_state), store)
      | Raise _ =>
          (Ok ("Desculpe, tive um problema ao processar seu áudio. Poderia tentar novamente?", user_state), store)
      | Ok (TryReturn r) => (Ok (r, user_state), store)
      | Ok (TryFallthrough processed_text s') =>
          run_dispatch c (<[state_key := s']> store) state_key uid uname processed_text audio s'
      end
    else if opt_eqb mode "voice" && negb audio && truthy user_input_text then
      let r := "Detectei que você está no modo de *voz*, mas enviou uma mensagem de *texto*. Processando sua mensagem de texto." in
      if String.prefix "awaiting_audio_" current_stage then
        match current_audio_task (metadata user_state) with
        | None => (Raise AttributeError, store)
        | Some task_type =>
            (Ok (r ++ nl ++ "Mas esperava um *áudio* para a tarefa '" ++ underscore_to_space task_type
                 ++ "'. Você gostaria de tentar novamente enviando um áudio?", user_state), store)
        end
      else (Ok (r, user_state), store)
    else if opt_eqb mode "text" && audio then
      (Ok (text_mode_audio_msg, user_state), store)
    else if negb (truthy user_input_text) && negb audio then
      (Ok ("Não entendi sua mensagem. Poderia tentar novamente?", user_state), store)
    else
      run_dispatch c store state_key uid uname user_input_text audio user_state
  end.

(* ------------------------------------------------------------------ *)
(** ** From a Meta webhook message to the engine's arguments *)

(** The messages [whatsapp_receive_message] reads: [type] "text" with
    [text.body], [type] "audio" with [audio.id], any other type. *)
Inductive wa_message :=
| MsgText (from_number body : string)
| MsgAudio (from_number media_id : string)
| MsgOther (from_number type_ : string).

(** [handle_incoming_whatsapp_message(from_number, username, user_text,
    user_audio_media_id, message)] with [username = from_number]; other
    message types are skipped ([None]). *)
Definition handle_message (c : caps) (x : io) (store : gmap string session)
    (m : wa_message) : option outcome :=
  match m with
  | MsgText from body => Some (process_whatsapp_message c x store from from (Some body) None)
  | MsgAudio from mid => Some (process_whatsapp_message c x store from from None (Some mid))
  | MsgOther _ _ => None
  end.

(** The store after a run of messages (skipped ones change nothing). *)
Fixpoint run_messages (c : caps) (x : io) (store : gmap string session)
    (ms : list wa_message) : gmap string session :=
  match ms with
  | [] => store
  | m :: ms' =>
      match handle_message c x store m with
      | Some (_, store') => run_messages c x store' ms'
      | None => run_messages c x store ms'
      end
  end.

(* ================================================================== *)
(** * Properties *)

(** All four voice collaborators configured: the only configuration in
    which [initial] sets [interaction_mode] to "voice". *)
Definition voice_caps (c : caps) : bool :=
  asr_pipeline c && google_tts_client c && s3_client c && truthy (R2_ENDPOINT_URL_PUBLIC c).

Lemma truthy_some (t : string) : t <> "" -> truthy (Some t) = true.
Proof.
  intros Ht. unfold truthy. destruct (String.eqb_spec t ""); [contradiction | reflexivity].
Qed.

Lemma eqb_empty_false (t : string) : t <> "" -> String.eqb t "" = false.
Proof. intros Ht. apply String.eqb_neq. exact Ht. Qed.

Lemma resolve_message : resolve_name "message" = Raise NameError.
Proof. reflexivity. Qed.

(** The [try] block never falls through to the stage chain once storage is
    configured: the storage step evaluates the unbound name [message]. *)
(** Unfold the [result] monad's bind. *)
Ltac unfold_bind := unfold mbind, result_bind.

Lemma voice_audio_try_no_fallthrough (c : caps) (x : io) (uid : string) (s : session)
    (pt : option string) (s' : session) :
  s3_client c = true -> truthy (R2_ENDPOINT_URL_PUBLIC c) = true ->
  voice_audio_try c x uid s <> Ok (TryFallthrough pt s').
Proof.
  intros Hs3 Hr2. unfold voice_audio_try. unfold_bind.
  destruct (io_media_info x) as [[du mime]| |]; cbn; try discriminate.
  destruct (truthy du); cbn; try discriminate.
  destruct (io_download x) as [b| |]; cbn; try discriminate.
  destruct (negb (opt_eqb (current_audio_task (metadata s)) "silence")); cbn;
    [destruct (truthy (io_transcript x)); cbn; try discriminate|];
    rewrite Hs3, Hr2; cbn; discriminate.
Qed.

(** When the media is fetched and (for a non-silence task) transcribed, the
    block ends in [NameError]. *)
Lemma voice_audio_try_name_error (c : caps) (x : io) (uid : string) (s : session)
    (url : string) (mime : option string) (b : string) :
  s3_client c = true -> truthy (R2_ENDPOINT_URL_PUBLIC c) = true ->
  io_media_info x = Fetched (Some url, mime) -> url <> "" ->
  io_download x = Fetched b ->
  (opt_eqb (current_audio_task (metadata s)) "silence" = true \/
   truthy (io_transcript x) = true) ->
  voice_audio_try c x uid s = Raise NameError.
Proof.
  intros Hs3 Hr2 Hinfo Hurl Hdl Htr. unfold voice_audio_try. unfold_bind.
  rewrite Hinfo. cbn. rewrite (eqb_empty_false url Hurl). cbn. rewrite Hdl. cbn.
  destruct Htr as [Hsil | Htr].
  - rewrite Hsil. cbn. rewrite Hs3, Hr2. reflexivity.
  - destruct (opt_eqb (current_audio_task (metadata s)) "silence"); cbn;
      [|rewrite Htr; cbn]; rewrite Hs3, Hr2; reflexivity.
Qed.

(** A voice-mode audio event leaves the stored session as it was. *)
Lemma voice_audio_unchanged (c : caps) (x : io) (store : gmap string session)
    (uid uname : string) (t : option string) (mid : string) (s : session) :
  voice_caps c = true ->
  store !! get_user_state_key "whatsapp" uid = Some s ->
  interaction_mode s = Some "voice" -> mid <> "" ->
  text_is t "/start" = false ->
  exists r, process_whatsapp_message c x store uid uname t (Some mid) = (Ok (r, s), store).
Proof.
  intros Hc Hs Hm Hmid Hreset.
  unfold voice_caps in Hc. apply andb_prop in Hc as [Hc Hr2].
  apply andb_prop in Hc as [Hc Hs3]. apply andb_prop in Hc as [Hasr _].
  unfold process_whatsapp_message. rewrite Hs, Hreset, Hm, (truthy_some mid Hmid), Hasr, Hs3.
  cbn [opt_eqb String.eqb andb].
  destruct (voice_audio_try c x uid s) as [[r | pt s'] | e] eqn:Ht.
  - eauto.
  - exfalso. exact (voice_audio_try_no_fallthrough c x uid s pt s' Hs3 Hr2 Ht).
  - destruct e; eauto.
Qed.

(** A text-mode audio event is answered with the mode-mismatch message. *)
Lemma text_mode_audio_unchanged (c : caps) (x : io) (store : gmap string session)
    (uid uname : string) (t : option string) (mid : string) (s : session) :
  store !! get_user_state_key "whatsapp" uid = Some s ->
  interaction_mode s = Some "text" -> mid <> "" ->
  text_is t "/start" = false ->
  process_whatsapp_message c x store uid uname t (Some mid)
  = (Ok (text_mode_audio_msg, s), store).
Proof.
  intros Hs Hm Hmid Hreset.
  unfold process_whatsapp_message. rewrite Hs, Hreset, Hm, (truthy_some mid Hmid).
  reflexivity.
Qed.

(** A non-empty text event in text mode goes straight to the stage chain. *)
Lemma text_mode_text_dispatch (c : caps) (x : io) (store : gmap string session)
    (uid uname t : string) (s : session) :
  store !! get_user_state_key "whatsapp" uid = Some s ->
  interaction_mode s = Some "text" -> t <> "" ->
  text_is (Some t) "/start" = false ->
  process_whatsapp_message c x store uid uname (Some t) None
  = run_dispatch c store (get_user_state_key "whatsapp" uid) uid uname (Some t) false s.
Proof.
  intros Hs Hm Ht Hreset.
  unfold process_whatsapp_message. rewrite Hs, Hreset, Hm, (truthy_some t Ht).
  reflexivity.
Qed.

(** Sample data for the concrete instances below. *)
Definition sample_user : string := "5511999990000".
Definition sample_key : string := get_user_state_key "whatsapp" sample_user.
Definition sample_caps : caps := mkCaps true true true (Some "https://pub-acct.r2.dev/kurumim").
Definition sample_io : io :=
  mkIo (Fetched (Some "https://lookaside.fbsbx.com/media1", Some "audio/ogg"))
       (Fetched "OggS") (Some "aaaa") "wamid.1" true.

(** A session of [sample_user] at [st] in mode [md], with [cur] the current
    task and [q] the queue. *)
Definition sample_session (md st : string) (cur : option string) (q : list string) : session :=
  set_stage st (set_tasks_queue q (set_interaction_mode md
    (with_meta (set_current_audio_task cur) (init_user_state sample_user sample_user)))).

Definition sample_store (s : session) : gmap string session := <[sample_key := s]> ∅.

Definition audio_silence_session (md : string) : session :=
  sample_session md "awaiting_audio_silence" (Some "silence") (tail task_catalog).

(** C10: in text mode an audio message is answered with the mode-mismatch
    message at every stage, and the stored session is left as it was. *)
Theorem text_mode_audio_uniformly_rejected (c : caps) (x : io)
    (store : gmap string session) (from mid : string) (s : session) :
  store !! get_user_state_key "whatsapp" from = Some s ->
  interaction_mode s = Some "text" -> mid <> "" ->
  handle_message c x store (MsgAudio from mid) = Some (Ok (text_mode_audio_msg, s), store).
Proof.
  intros Hs Hm Hmid. cbn [handle_message].
  rewrite (text_mode_audio_unchanged c x store from from None mid s Hs Hm Hmid eq_refl).
  reflexivity.
Qed.

Lemma text_mode_audio_uniformly_rejected_witness :
  sample_store (audio_silence_session "text") !! sample_key = Some (audio_silence_session "text") /\
  handle_message sample_caps sample_io (sample_store (audio_silence_session "text"))
    (MsgAudio sample_user "media-1")
  = Some (Ok (text_mode_audio_msg, audio_silence_session "text"),
          sample_store (audio_silence_session "text")).
Proof.
  split; [reflexivity|].
  apply (text_mode_audio_uniformly_rejected sample_caps sample_io _ sample_user "media-1"
           (audio_silence_session "text")); [reflexivity | reflexivity | discriminate].
Defined.

(** C1: with the voice collaborators configured (the only way a session is
    in voice mode), an audio message in voice mode never changes the stored
    session: no stage advance, no URL in [audio_urls], the queue and the
    current task as they were.  When the media is fetched and (except for
    the silence task) transcribed, the reply is the generic apology of the
    [except Exception] handler, reached through the [NameError] on
    [message]. *)
Theorem voice_audio_never_recorded (c : caps) (x : io)
    (store : gmap string session) (from mid : string) (s : session) :
  voice_caps c = true ->
  store !! get_user_state_key "whatsapp" from = Some s ->
  interaction_mode s = Some "voice" -> mid <> "" ->
  exists r,
    handle_message c x store (MsgAudio from mid) = Some (Ok (r, s), store) /\
    (forall url mime b,
       io_media_info x = Fetched (Some url, mime) -> url <> "" ->
       io_download x = Fetched b ->
       (opt_eqb (current_audio_task (metadata s)) "silence" = true \/
        truthy (io_transcript x) = true) ->
       r = "Desculpe, tive um problema ao processar seu áudio. Poderia tentar novamente?").
Proof.
  intros Hc Hs Hm Hmid.
  destruct (voice_audio_unchanged c x store from from None mid s Hc Hs Hm Hmid eq_refl)
    as [r Hr].
  exists r. cbn [handle_message]. rewrite Hr. split; [reflexivity|].
  intros url mime b Hinfo Hurl Hdl Htr.
  pose proof Hc as Hc'. unfold voice_caps in Hc'.
  apply andb_prop in Hc' as [Hc' Hr2]. apply andb_prop in Hc' as [Hc' Hs3].
  apply andb_prop in Hc' as [Hasr _].
  unfold process_whatsapp_message in Hr. rewrite Hs, Hm, (truthy_some mid Hmid), Hasr, Hs3 in Hr.
  cbn [text_is truthy opt_eqb String.eqb andb] in Hr.
  rewrite (voice_audio_try_name_error c x from s url mime b Hs3 Hr2 Hinfo Hurl Hdl Htr) in Hr.
  injection Hr as Hr. congruence.
Qed.

Lemma voice_audio_never_recorded_witness :
  voice_caps sample_caps = true /\
  exists r,
    handle_message sample_caps sample_io (sample_store (audio_silence_session "voice"))
      (MsgAudio sample_user "media-1")
    = Some (Ok (r, audio_silence_session "voice"), sample_store (audio_silence_session "voice")).
Proof.
  split; [reflexivity|].
  destruct (voice_audio_never_recorded sample_caps sample_io
              (sample_store (audio_silence_session "voice")) sample_user "media-1"
              (audio_silence_session "voice") eq_refl eq_refl eq_refl ltac:(discriminate))
    as [r [Hr _]].
  exists r. exact Hr.
Defined.

(** The stage graph of the design: the stages of the transition table, with
    [awaiting_audio_<task>] for each catalog task. *)
Definition graph_stage (st : string) : bool :=
  in_list st ["initial"; "awaiting_consent"; "awaiting_name"; "awaiting_age";
              "awaiting_smoking_status"; "awaiting_diagnosis";
              "awaiting_emotional_state"; "awaiting_environment";
              "requesting_first_audio_task"; "finished_tasks"; "finished"]
  || existsb (fun t => String.eqb st ("awaiting_audio_" ++ t)) task_catalog.

(** The stored stage and mode of [sample_user] after a run of messages. *)
Definition sample_view (c : caps) (ms : list wa_message) : option (string * option string) :=
  fmap (fun s => (stage s, interaction_mode s)) (run_messages c sample_io ∅ ms !! sample_key).

Definition caps_no_asr : caps := mkCaps false true true (Some "https://pub-acct.r2.dev/kurumim").
Definition caps_no_tts : caps := mkCaps true false true (Some "https://pub-acct.r2.dev/kurumim").

Definition texts (l : list string) : list wa_message := map (MsgText sample_user) l.

(** C2: without the speech-recognition model, answering "voz" at [initial]
    stores the stage "awaiting_interaction_mode", which is no stage of the
    graph; no branch of the chain handles it, so "texto", "voz" or "sim"
    afterwards leave it there (only "/start" leaves it). *)
Theorem unrecognized_stage_reachable :
  graph_stage "awaiting_interaction_mode" = false /\
  sample_view caps_no_asr (texts ["oi"; "voz"])
    = Some ("awaiting_interaction_mode", Some "text") /\
  sample_view caps_no_asr (texts ["oi"; "voz"; "texto"; "voz"; "sim"])
    = Some ("awaiting_interaction_mode", Some "text") /\
  sample_view caps_no_asr (texts ["oi"; "voz"; "/start"])
    = Some ("initial", Some "text").
Proof. repeat split; vm_compute; reflexivity. Qed.

(** C3: with a voice collaborator missing (here speech synthesis), "voz"
    at [initial] forces text mode but moves the stage to
    "awaiting_interaction_mode" instead of keeping [initial]; a later
    "texto" there gets an empty reply and changes nothing, where at
    [initial] it would have selected text mode. *)
Theorem voz_without_tts_leaves_initial :
  sample_view caps_no_tts (texts ["oi"; "voz"])
    = Some ("awaiting_interaction_mode", Some "text") /\
  sample_view caps_no_tts (texts ["oi"; "voz"; "texto"])
    = Some ("awaiting_interaction_mode", Some "text") /\
  option_map fst (handle_message caps_no_tts sample_io
                    (run_messages caps_no_tts sample_io ∅ (texts ["oi"; "voz"]))
                    (MsgText sample_user "texto"))
    = Some (Ok ("", sample_session "text" "awaiting_interaction_mode" None [])) /\
  sample_view caps_no_tts (texts ["oi"; "texto"])
    = Some ("awaiting_consent", Some "text").
Proof. repeat split; vm_compute; reflexivity. Qed.



(** The session after the dispatch accepts a recording with [next] queued. *)
Definition dequeued (next : string) (rest : list string) (s : session) : session :=
  set_stage ("awaiting_audio_" ++ next)
    (with_meta (set_current_audio_task (Some next)) (set_tasks_queue rest s)).

(** How the chain's tests evaluate on a stage [awaiting_audio_<t>]. *)
Lemma audio_stage_prefix (t : string) :
  String.prefix "awaiting_audio_" ("awaiting_audio_" ++ t) = true.
Proof. destruct t; reflexivity. Qed.










(** The session after the environment is recorded at [awaiting_environment]. *)
Definition environment_recorded (e : string) (s : session) : session :=
  set_stage "requesting_first_audio_task"
    (set_tasks_queue task_catalog (with_meta (set_environment e) s)).

Definition environment_session : session :=
  sample_session "text" "awaiting_environment" None [].

(** C5, as stated, fails: after the single "Silencioso" message the stage is
    [requesting_first_audio_task], no task is current and the whole catalog
    is still queued. *)
Lemma environment_single_event_counterexample :
  let st := run_messages sample_caps sample_io (sample_store environment_session)
              [MsgText sample_user "Silencioso"] in
  fmap stage (st !! sample_key) = Some "requesting_first_audio_task" /\
  fmap (fun s => current_audio_task (metadata s)) (st !! sample_key) = Some None /\
  fmap tasks_queue (st !! sample_key) = Some task_catalog.
Proof. vm_compute. repeat split. Qed.

(** C5 (amended): in text mode, a non-empty description at
    [awaiting_environment] is stored, [tasks_queue] becomes the catalog and
    the stage [requesting_first_audio_task], the current task untouched;
    the next non-empty text message (other than "/start") dequeues
    "silence": stage [awaiting_audio_silence], current task "silence", the
    other seven tasks queued. *)
Theorem environment_then_first_task (c : caps) (x : io) (store : gmap string session)
    (uid uname e t2 : string) (s : session) :
  store !! get_user_state_key "whatsapp" uid = Some s ->
  interaction_mode s = Some "text" -> stage s = "awaiting_environment" ->
  e <> "" -> text_is (Some e) "/start" = false ->
  t2 <> "" -> text_is (Some t2) "/start" = false ->
  let key := get_user_state_key "whatsapp" uid in
  let s1 := environment_recorded e s in
  let s2 := dequeued "silence" (tail task_catalog) s1 in
  (exists r1, process_whatsapp_message c x store uid uname (Some e) None
              = (Ok (r1, s1), <[key := s1]> store)) /\
  stage s1 = "requesting_first_audio_task" /\ environment (metadata s1) = Some e /\
  tasks_queue s1 = task_catalog /\
  current_audio_task (metadata s1) = current_audio_task (metadata s) /\
  (exists r2, process_whatsapp_message c x (<[key := s1]> store) uid uname (Some t2) None
              = (Ok (r2, s2), <[key := s2]> (<[key := s1]> store))) /\
  stage s2 = "awaiting_audio_silence" /\ current_audio_task (metadata s2) = Some "silence" /\
  tasks_queue s2 = tail task_catalog.
Proof.
  intros Hs Hm Hst He Hre Ht2 Hre2 key s1 s2.
  split; [|split; [reflexivity|split; [reflexivity|split; [reflexivity|split; [reflexivity|]]]]].
  - rewrite (text_mode_text_dispatch c x store uid uname e s Hs Hm He Hre).
    unfold run_dispatch, stage_dispatch. rewrite Hst. cbn.
    rewrite (eqb_empty_false e He). cbn. eexists. reflexivity.
  - split; [|split; [reflexivity|split; reflexivity]].
    assert (Hs1 : <[key := s1]> store !! get_user_state_key "whatsapp" uid = Some s1)
      by apply lookup_insert_eq.
    rewrite (text_mode_text_dispatch c x (<[key := s1]> store) uid uname t2 s1 Hs1 Hm Ht2 Hre2).
    unfold run_dispatch, stage_dispatch. cbn. eexists. reflexivity.
Qed.

Lemma environment_then_first_task_witness :
  (exists r1, process_whatsapp_message sample_caps sample_io (sample_store environment_session)
                sample_user sample_user (Some "Silencioso") None
              = (Ok (r1, environment_recorded "Silencioso" environment_session),
                 <[sample_key := environment_recorded "Silencioso" environment_session]>
                   (sample_store environment_session))) /\
  stage (dequeued "silence" (tail task_catalog)
           (environment_recorded "Silencioso" environment_session)) = "awaiting_audio_silence".
Proof.
  destruct (environment_then_first_task sample_caps sample_io (sample_store environment_session)
              sample_user sample_user "Silencioso" "ok" environment_session
              eq_refl eq_refl eq_refl ltac:(discriminate) eq_refl ltac:(discriminate) eq_refl)
    as (H1 & _ & _ & _ & _ & _ & H2 & _).
  split; [exact H1 | exact H2].
Defined.

(** C6, as stated, fails: "/start" leaves [interaction_mode] set to "text",
    the default of [init_user_state], not unset. *)
Lemma reset_mode_counterexample :
  let st := run_messages sample_caps sample_io (sample_store (audio_silence_session "voice"))
              [MsgText sample_user "/start"] in
  fmap interaction_mode (st !! sample_key) = Some (Some "text").
Proof. vm_compute. reflexivity. Qed.

(** C6 (amended): a text message equal to "/start" up to case, at any stage
    (or for a new user), replaces the stored session with a fresh record:
    stage [initial], user id, platform and username set, every collected
    field and the current task [None], [audio_urls] empty, [tasks_queue]
    empty, and [interaction_mode] "text" (the default mode). *)
Theorem reset_replaces_session (c : caps) (x : io) (store : gmap string session)
    (uid uname t : string) (audio : option string) :
  text_is (Some t) "/start" = true ->
  let s0 := init_user_state uid uname in
  process_whatsapp_message c x store uid uname (Some t) audio
    = (Ok (welcome_msg, s0), <[get_user_state_key "whatsapp" uid := s0]> store) /\
  stage s0 = "initial" /\
  user_id (metadata s0) = uid /\ platform (metadata s0) = "whatsapp" /\
  username (metadata s0) = uname /\
  name (metadata s0) = None /\ age (metadata s0) = None /\
  diagnosis (metadata s0) = None /\ smoking_status (metadata s0) = None /\
  emotional_state (metadata s0) = None /\ environment (metadata s0) = None /\
  current_audio_task (metadata s0) = None /\ audio_urls (metadata s0) = [] /\
  tasks_queue s0 = [] /\ interaction_mode s0 = Some "text".
Proof.
  intros Ht s0. split; [|repeat split].
  unfold process_whatsapp_message.
  destruct (store !! get_user_state_key "whatsapp" uid); [rewrite Ht|]; reflexivity.
Qed.

Lemma reset_replaces_session_witness :
  text_is (Some "/START") "/start" = true /\
  fst (process_whatsapp_message sample_caps sample_io (sample_store (audio_silence_session "voice"))
         sample_user sample_user (Some "/START") None)
  = Ok (welcome_msg, init_user_state sample_user sample_user).
Proof.
  split; [reflexivity|].
  destruct (reset_replaces_session sample_caps sample_io (sample_store (audio_silence_session "voice"))
              sample_user sample_user "/START" None eq_refl) as [H _].
  rewrite H. reflexivity.
Defined.







(* ------------------------------------------------------------------ *)
(** ** Substrings *)

(** [t in s] for Python strings. *)
Definition contains (s t : string) : Prop := exists a b, s = a ++ t ++ b.

Fixpoint substr_b (t s : string) : bool :=
  String.prefix t s || match s with EmptyString => false | String _ s' => substr_b t s' end.

(** stdpp declares [String.append] [simpl never]; these unfold it. *)
Lemma app_cons_str (ch : ascii) (a b : string) : String ch a ++ b = String ch (a ++ b).
Proof. reflexivity. Qed.

Lemma app_nil_l_str (b : string) : "" ++ b = b.
Proof. reflexivity. Qed.


Lemma prefix_app_str (t b : string) : String.prefix t (t ++ b) = true.
Proof.
  induction t as [|ch t IH]; [destruct b; reflexivity|].
  rewrite app_cons_str. cbn. destruct (ascii_dec ch ch) as [_|n]; [exact IH | contradiction].
Qed.

Lemma contains_substr_b (s t : string) : contains s t -> substr_b t s = true.
Proof.
  intros (a & b & ->). induction a as [|ch a IH].
  - rewrite app_nil_l_str.
    pose proof (prefix_app_str t b) as H. revert H.
    destruct (t ++ b); cbn; intros ->; reflexivity.
  - rewrite app_cons_str. cbn. rewrite IH. apply orb_true_r.
Qed.

Lemma contains_head (t b : string) : contains (t ++ b) t.
Proof. exists "", b. reflexivity. Qed.












(* ------------------------------------------------------------------ *)
(** ** The completion summary *)






(* ------------------------------------------------------------------ *)
(** ** Rejection *)









(* ================================================================== *)
(** * Further properties of [main.py] *)

(* ------------------------------------------------------------------ *)
(** ** The [user_states] store *)

Lemma append_cancel_l (p a b : string) : p ++ a = p ++ b -> a = b.
Proof.
  induction p as [|ch p IH]; [exact id|].
  rewrite !app_cons_str. intros H. injection H as H. exact (IH H).
Qed.

(** Distinct user ids of one platform get distinct keys: sessions of two
    users never share an entry of [user_states]. *)
Theorem state_key_injective (platform u1 u2 : string) :
  get_user_state_key platform u1 = get_user_state_key platform u2 -> u1 = u2.
Proof.
  unfold get_user_state_key. intros H.
  apply append_cancel_l in H. apply (append_cancel_l "_") in H. exact H.
Qed.

Lemma run_dispatch_store (c : caps) (store : gmap string session) (k uid uname : string)
    (pt : option string) (a : bool) (s : session) :
  exists s', snd (run_dispatch c store k uid uname pt a s) = <[k := s']> store.
Proof.
  unfold run_dispatch.
  destruct (stage_dispatch c uname pt a s) as [[|r s']|e]; cbn; eauto.
Qed.

(** What one message does to [user_states]: nothing, when the user already
    has a session, or a write at the user's key. *)
Lemma process_store_shape (c : caps) (x : io) (store : gmap string session)
    (uid uname : string) (t mid : option string) :
  let k := get_user_state_key "whatsapp" uid in
  (is_Some (store !! k) /\ snd (process_whatsapp_message c x store uid uname t mid) = store) \/
  exists s', snd (process_whatsapp_message c x store uid uname t mid) = <[k := s']> store.
Proof.
  cbv zeta. unfold process_whatsapp_message.
  destruct (store !! get_user_state_key "whatsapp" uid) as [s|] eqn:Hs;
    [|right; eexists; reflexivity].
  destruct (text_is t "/start"); [right; eexists; reflexivity|].
  cbv zeta.
  destruct (opt_eqb (interaction_mode s) "voice" && truthy mid && asr_pipeline c && s3_client c).
  - destruct (voice_audio_try c x uid s) as [[r|pt s']|[]]; try (left; split; [eauto | reflexivity]).
    right. destruct (run_dispatch_store c (<[get_user_state_key "whatsapp" uid := s']> store)
                       (get_user_state_key "whatsapp" uid) uid uname pt (truthy mid) s') as [s'' ->].
    exists s''. apply insert_insert_eq.
  - destruct (opt_eqb (interaction_mode s) "voice" && negb (truthy mid) && truthy t).
    { destruct (String.prefix "awaiting_audio_" (stage s)); [destruct (current_audio_task (metadata s))|];
        left; split; [eauto | reflexivity | eauto | reflexivity | eauto | reflexivity]. }
    destruct (opt_eqb (interaction_mode s) "text" && truthy mid); [left; split; [eauto | reflexivity]|].
    destruct (negb (truthy t) && negb (truthy mid)); [left; split; [eauto | reflexivity]|].
    right. apply run_dispatch_store.
Qed.

(** A message from one user leaves every other entry of [user_states] as
    it was. *)
Theorem process_isolated (c : caps) (x : io) (store : gmap string session)
    (uid uname : string) (t mid : option string) (k : string) :
  k <> get_user_state_key "whatsapp" uid ->
  snd (process_whatsapp_message c x store uid uname t mid) !! k = store !! k.
Proof.
  intros Hk. destruct (process_store_shape c x store uid uname t mid) as [[_ ->] | [s' ->]];
    [reflexivity|].
  apply lookup_insert_ne. congruence.
Qed.

Lemma process_isolated_witness :
  "whatsapp_1" <> get_user_state_key "whatsapp" sample_user /\
  snd (process_whatsapp_message sample_caps sample_io ∅ sample_user sample_user (Some "oi") None)
    !! "whatsapp_1" = None.
Proof.
  split; [discriminate|].
  exact (process_isolated sample_caps sample_io ∅ sample_user sample_user (Some "oi") None
           "whatsapp_1" ltac:(discriminate)).
Defined.

(** After any message, whatever its outcome, the sender has a session in
    [user_states]. *)
Theorem process_leaves_session (c : caps) (x : io) (store : gmap string session)
    (uid uname : string) (t mid : option string) :
  is_Some (snd (process_whatsapp_message c x store uid uname t mid)
             !! get_user_state_key "whatsapp" uid).
Proof.
  destruct (process_store_shape c x store uid uname t mid) as [[Hk ->] | [s' ->]];
    [exact Hk|].
  rewrite lookup_insert_eq. eauto.
Qed.

(* ------------------------------------------------------------------ *)
(** ** An invariant of the stored sessions *)


(** The stages that come after the smoking status was recorded. *)
Definition late_stage (st : string) : bool :=
  in_list st ["awaiting_diagnosis"; "awaiting_emotional_state"; "awaiting_environment";
              "requesting_first_audio_task"; "finished_tasks"]
  || String.prefix "awaiting_audio_" st.






Lemma late_audio (t : string) : late_stage ("awaiting_audio_" ++ t) = true.
Proof. unfold late_stage. rewrite audio_stage_prefix. apply orb_true_r. Qed.














(* ------------------------------------------------------------------ *)
(** ** [whatsapp_verify_webhook] *)




(* ------------------------------------------------------------------ *)
(** ** [whatsapp_receive_message] *)

(** The value [request.json()] decodes.  A JSON object is a dict with
    distinct keys, listed in order; of a number only whether it is zero
    matters to the handler. *)
#[warnings="-register-all"]
Inductive pyval :=
| PNone
| PBool (b : bool)
| PNum (z : Z)
| PStr (s : string)
| PList (l : list pyval)
| PDict (d : list (string * pyval)).

Definition py_truthy (v : pyval) : bool :=
  match v with
  | PNone => false
  | PBool b => b
  | PNum z => negb (Z.eqb z 0)
  | PStr s => negb (String.eqb s "")
  | PList l => match l with [] => false | _ => true end
  | PDict d => match d with [] => false | _ => true end
  end.

(** [v == "lit"] *)
Definition py_eq_str (v : pyval) (lit : string) : bool :=
  match v with PStr s => String.eqb s lit | _ => false end.

(** In this section an exception ([KeyError], [TypeError]) is [None]: the
    handler treats them alike. *)

(** [k in v] for a string [k]: a key of a dict, an element of a list, a
    substring of a string; a [TypeError] otherwise. *)
Definition py_contains (k : string) (v : pyval) : option bool :=
  match v with
  | PDict d => Some (existsb (fun kv => String.eqb (fst kv) k) d)
  | PList l => Some (existsb (fun e => py_eq_str e k) l)
  | PStr s => Some (substr_b k s)
  | _ => None
  end.

(** [v[k]] for a string [k]: a [KeyError] for a missing key, a [TypeError]
    on anything but a dict. *)
Definition py_getitem (v : pyval) (k : string) : option pyval :=
  match v with
  | PDict d => option_map snd (List.find (fun kv => String.eqb (fst kv) k) d)
  | _ => None
  end.

(** [for x in v]: the elements of a list, the keys of a dict, the
    characters of a string; a [TypeError] otherwise. *)
Definition py_iter (v : pyval) : option (list pyval) :=
  match v with
  | PList l => Some l
  | PDict d => Some (map (fun kv => PStr (fst kv)) d)
  | PStr s => Some (map (fun ch => PStr (String ch "")) (list_ascii_of_string s))
  | _ => None
  end.

(** The arguments of one [handle_incoming_whatsapp_message] task:
    [from_number] (also the username), [user_text], [user_audio_media_id]. *)
Definition wa_call : Type := (pyval * option pyval * option pyval)%type.

(** A loop that has created some tasks, and either finished or been cut
    by an exception. *)
Inductive loop_run :=
| Done (cs : list wa_call)
| Aborted (cs : list wa_call).

Definition calls_of (r : loop_run) : list wa_call :=
  match r with Done cs => cs | Aborted cs => cs end.

(** [for a in l: body(a)]: an exception stops the loop. *)
Fixpoint for_each {A} (l : list A) (body : A -> loop_run) : loop_run :=
  match l with
  | [] => Done []
  | a :: l' =>
      match body a with
      | Done cs =>
          match for_each l' body with
          | Done cs' => Done (app cs cs')
          | Aborted cs' => Aborted (app cs cs')
          end
      | Aborted cs => Aborted cs
      end
  end.

Definition or_abort (o : option loop_run) : loop_run :=
  match o with Some r => r | None => Aborted [] end.

(** The body of [for message in value["messages"]]. *)
Definition message_body (message : pyval) : loop_run :=
  or_abort (
    ty ← py_getitem message "type";
    if negb (py_eq_str ty "text" || py_eq_str ty "audio") then Some (Done []) else
    from_number ← py_getitem message "from";
    ty' ← py_getitem message "type";
    if py_eq_str ty' "text" then
      t ← py_getitem message "text";
      user_text ← py_getitem t "body";
      Some (Done [(from_number, Some user_text, None)])
    else
      ty'' ← py_getitem message "type";
      if py_eq_str ty'' "audio" then
        au ← py_getitem message "audio";
        media_id ← py_getitem au "id";
        Some (Done [(from_number, None, Some media_id)])
      else Some (Done [(from_number, None, None)])).

(** The body of [for change in entry["changes"]]. *)
Definition change_body (change : pyval) : loop_run :=
  or_abort (
    has_value ← py_contains "value" change;
    if negb has_value then Some (Done []) else
    field ← py_getitem change "field";
    if negb (py_eq_str field "messages") then Some (Done []) else
    value ← py_getitem change "value";
    has_messages ← py_contains "messages" value;
    if negb has_messages then Some (Done []) else
    messages ← py_getitem value "messages";
    if negb (py_truthy messages) then Some (Done []) else
    ms ← py_iter messages;
    Some (for_each ms message_body)).

(** The body of [for entry in payload["entry"]]. *)
Definition entry_body (entry : pyval) : loop_run :=
  or_abort (
    has_changes ← py_contains "changes" entry;
    if negb has_changes then Some (Done []) else
    changes ← py_getitem entry "changes";
    if negb (py_truthy changes) then Some (Done []) else
    cl ← py_iter changes;
    Some (for_each cl change_body)).

(** [whatsapp_receive_message]: the status code and the tasks created, in
    order.  [None] is a body that is not JSON ([json.JSONDecodeError]);
    any other exception is logged and answered with 200, and the tasks
    created before it still run. *)
Definition whatsapp_receive_message (body : option pyval) : nat * list wa_call :=
  match body with
  | None => (400, [])
  | Some payload =>
      let r := or_abort (
        has_entry ← py_contains "entry" payload;
        if negb has_entry then Some (Done []) else
        entry ← py_getitem payload "entry";
        if negb (py_truthy entry) then Some (Done []) else
        es ← py_iter entry;
        Some (for_each es entry_body)) in
      (200, calls_of r)
  end.

(** A Meta notification carrying [ms] in one entry and one change. *)
Definition encode_message (m : wa_message) : pyval :=
  match m with
  | MsgText from body =>
      PDict [("from", PStr from); ("type", PStr "text"); ("text", PDict [("body", PStr body)])]
  | MsgAudio from mid =>
      PDict [("from", PStr from); ("type", PStr "audio"); ("audio", PDict [("id", PStr mid)])]
  | MsgOther from ty => PDict [("from", PStr from); ("type", PStr ty)]
  end.

Definition meta_payload (messages : list pyval) : pyval :=
  PDict [("object", PStr "whatsapp_business_account");
         ("entry", PList [PDict [("changes", PList [PDict [
            ("value", PDict [("messaging_product", PStr "whatsapp"); ("messages", PList messages)]);
            ("field", PStr "messages")]])]])].

(** The task [handle_message] runs for a decoded message. *)
Definition expected_call (m : wa_message) : list wa_call :=
  match m with
  | MsgText from body => [(PStr from, Some (PStr body), None)]
  | MsgAudio from mid => [(PStr from, None, Some (PStr mid))]
  | MsgOther _ _ => []
  end.

Definition other_types_ok (ms : list wa_message) : Prop :=
  Forall (fun m => match m with MsgOther _ ty => ty <> "text" /\ ty <> "audio" | _ => True end) ms.

(* ------------------------------------------------------------------ *)
(** ** [send_whatsapp_response] and [handle_incoming_whatsapp_message] *)

(** The WhatsApp credentials read from the environment. *)
Record wa_credentials := mkCredentials {
  WHATSAPP_ACCESS_TOKEN : option string;
  WHATSAPP_PHONE_NUMBER_ID : option string
}.

(** [generate_speech_from_text]: [synthesized] is what
    [synthesize_speech(...).audio_content] returns for the text, [None]
    when the call raises (the function then returns [None]). *)
Definition generate_speech_from_text (c : caps) (synthesized : option string) : option string :=
  if google_tts_client c then synthesized else None.

(** The JSON body posted to the Graph API. *)
Inductive wa_payload :=
| TextPayload (to_number body : string)
| AudioPayload (to_number link : string).

(** [send_whatsapp_response] (without its optional [delay]): the payload
    it posts ([None]: it returns before posting).  [user_state] is [None]
    for the empty dict [{}], on which [user_state["interaction_mode"]]
    raises [KeyError] (here [OtherError]).  [hex] is [uuid.uuid4().hex];
    the [try] around the voice reply and the one around the post catch
    every exception. *)
Definition send_whatsapp_response (c : caps) (cred : wa_credentials) (x : io)
    (synthesized : option string) (hex : string) (to_number : string)
    (user_state : option session) (text : string) : result (option wa_payload) :=
  if negb (truthy (WHATSAPP_ACCESS_TOKEN cred)) || negb (truthy (WHATSAPP_PHONE_NUMBER_ID cred))
  then Ok None
  else
    match user_state with
    | None => Raise OtherError
    | Some us =>
        let payload := TextPayload to_number text in
        if opt_eqb (interaction_mode us) "voice" && google_tts_client c && s3_client c
           && truthy (R2_ENDPOINT_URL_PUBLIC c) then
          let audio_response_bytes := generate_speech_from_text c synthesized in
          if truthy audio_response_bytes then
            let audio_filename := "whatsapp_tts_" ++ hex ++ ".ogg" in
            let r2_key := "whatsapp_audios/" ++ to_number ++ "/tts/" ++ audio_filename in
            let public_audio_url := upload_audio_bytes_to_r2 c x r2_key in
            if truthy public_audio_url then Ok (Some (AudioPayload to_number (fmt_opt public_audio_url)))
            else Ok (Some payload)
          else Ok (Some payload)
        else Ok (Some payload)
    end.

Definition internal_error_msg : string :=
  "Desculpe, ocorreu um erro interno. Por favor, tente novamente mais tarde.".

(** [handle_incoming_whatsapp_message]: the payloads posted and the store
    afterwards.  [synth] gives the synthesized audio of a text; [hex1] and
    [hex2] are the uuids of the two possible sends. *)
Definition handle_incoming_whatsapp_message (c : caps) (cred : wa_credentials) (x : io)
    (synth : string -> option string) (hex1 hex2 : string) (store : gmap string session)
    (from_number username : string) (user_text user_audio_media_id : option string)
    : list wa_payload * gmap string session :=
  let '(res, store') :=
    process_whatsapp_message c x store from_number username user_text user_audio_media_id in
  let on_error :=
    let current_user_state := store' !! get_user_state_key "whatsapp" from_number in
    match send_whatsapp_response c cred x (synth internal_error_msg) hex2 from_number
            current_user_state internal_error_msg with
    | Ok (Some p) => [p]
    | _ => []
    end in
  let sent :=
    match res with
    | Ok (response_text, new_state) =>
        match send_whatsapp_response c cred x (synth response_text) hex1 from_number
                (Some new_state) response_text with
        | Ok (Some p) => [p]
        | Ok None => []
        | Raise _ => on_error
        end
    | Raise _ => on_error
    end in
  (sent, store').

(* ------------------------------------------------------------------ *)
(** ** Properties of the endpoints *)


Lemma for_each_app_done {A} (l1 l2 : list A) (body : A -> loop_run) (cs : list wa_call) :
  for_each l1 body = Done cs ->
  for_each (app l1 l2) body
  = match for_each l2 body with Done c => Done (app cs c) | Aborted c => Aborted (app cs c) end.
Proof.
  revert cs. induction l1 as [|a l1 IH]; intros cs H.
  - cbn in H. injection H as <-. cbn. destruct (for_each l2 body); reflexivity.
  - cbn in H |- *. destruct (body a) as [c1|c1]; [|discriminate H].
    destruct (for_each l1 body) as [c2|c2] eqn:E; [|discriminate H].
    injection H as <-. rewrite (IH c2 eq_refl).
    destruct (for_each l2 body) as [c3|c3]; rewrite app_assoc; reflexivity.
Qed.

Lemma message_body_encode (m : wa_message) :
  match m with MsgOther _ ty => ty <> "text" /\ ty <> "audio" | _ => True end ->
  message_body (encode_message m) = Done (expected_call m).
Proof.
  destruct m as [from body|from mid|from ty]; intros H; try reflexivity.
  destruct H as [H1 H2]. unfold message_body, encode_message. cbn.
  rewrite (proj2 (String.eqb_neq ty "text") H1), (proj2 (String.eqb_neq ty "audio") H2).
  reflexivity.
Qed.

Lemma for_each_encode (ms : list wa_message) :
  other_types_ok ms ->
  for_each (map encode_message ms) message_body = Done (flat_map expected_call ms).
Proof.
  induction 1 as [|m ms Hm _ IH]; [reflexivity|].
  cbn. rewrite (message_body_encode m Hm), IH. reflexivity.
Qed.

Lemma for_each_singleton {A} (a : A) (body : A -> loop_run) :
  for_each [a] body = match body a with Done cs => Done (app cs []) | Aborted cs => Aborted cs end.
Proof. reflexivity. Qed.

Lemma receive_meta_payload_calls (msgs : list pyval) :
  whatsapp_receive_message (Some (meta_payload msgs)) = (200, calls_of (for_each msgs message_body)).
Proof.
  destruct msgs as [|v l]; [reflexivity|].
  unfold whatsapp_receive_message, meta_payload. cbn -[for_each].
  rewrite for_each_singleton. unfold entry_body. cbn -[for_each].
  rewrite for_each_singleton. unfold change_body. cbn -[for_each].
  destruct (for_each (v :: l) message_body); cbn -[for_each]; rewrite ?app_nil_r; reflexivity.
Qed.

(** A Meta notification whose messages are text, audio or other types
    creates, in order, one task per text message (with its body) and one
    per audio message (with its media id), and none for the others; the
    response is 200. *)
Theorem receive_meta_payload (ms : list wa_message) :
  other_types_ok ms ->
  whatsapp_receive_message (Some (meta_payload (map encode_message ms)))
  = (200, flat_map expected_call ms).
Proof.
  intros Hok. rewrite receive_meta_payload_calls, (for_each_encode ms Hok). reflexivity.
Qed.

Lemma receive_meta_payload_witness :
  other_types_ok [MsgText sample_user "oi"; MsgOther sample_user "image"] /\
  whatsapp_receive_message
    (Some (meta_payload (map encode_message [MsgText sample_user "oi"; MsgOther sample_user "image"])))
  = (200, [(PStr sample_user, Some (PStr "oi"), None)]).
Proof.
  assert (H : other_types_ok [MsgText sample_user "oi"; MsgOther sample_user "image"]).
  { repeat constructor; discriminate. }
  split; [exact H|]. exact (receive_meta_payload _ H).
Defined.

(** A message without a [type] key stops the loop: the messages before it
    are dispatched, the ones after it are not, and the response is still
    200. *)
Theorem receive_stops_at_untyped_message (ms : list wa_message) (bad : pyval)
    (rest : list pyval) :
  other_types_ok ms -> py_getitem bad "type" = None ->
  whatsapp_receive_message (Some (meta_payload (app (map encode_message ms) (bad :: rest))))
  = (200, flat_map expected_call ms).
Proof.
  intros Hok Hbad.
  assert (Hf : calls_of (for_each (app (map encode_message ms) (bad :: rest)) message_body)
               = flat_map expected_call ms).
  { rewrite (for_each_app_done _ _ _ _ (for_each_encode ms Hok)). cbn.
    unfold message_body at 1. rewrite Hbad. cbn. apply app_nil_r. }
  rewrite receive_meta_payload_calls, Hf. reflexivity.
Qed.

Lemma receive_stops_at_untyped_message_witness :
  other_types_ok [MsgText sample_user "oi"] /\ py_getitem (PDict []) "type" = None /\
  whatsapp_receive_message
    (Some (meta_payload (app (map encode_message [MsgText sample_user "oi"])
                          [PDict []; encode_message (MsgText sample_user "sim")])))
  = (200, [(PStr sample_user, Some (PStr "oi"), None)]).
Proof.
  assert (H : other_types_ok [MsgText sample_user "oi"]) by (repeat constructor).
  split; [exact H|]. split; [reflexivity|].
  exact (receive_stops_at_untyped_message _ (PDict []) _ H eq_refl).
Defined.






(** The recipient and the text body of a posted payload. *)
Definition payload_to (p : wa_payload) : string :=
  match p with TextPayload t _ => t | AudioPayload t _ => t end.

Lemma truthy_url (a b : string) : truthy (Some (a ++ "/" ++ b)) = true.
Proof. destruct a; reflexivity. Qed.

Lemma send_payload_eq (c : caps) (cred : wa_credentials) (x : io)
    (synthesized : option string) (hex to_number : string) (us : session) (text : string) :
  truthy (WHATSAPP_ACCESS_TOKEN cred) = true ->
  truthy (WHATSAPP_PHONE_NUMBER_ID cred) = true ->
  send_whatsapp_response c cred x synthesized hex to_number (Some us) text =
  Ok (Some
    (if opt_eqb (interaction_mode us) "voice" && google_tts_client c && s3_client c
        && truthy (R2_ENDPOINT_URL_PUBLIC c) && truthy synthesized && io_upload_ok x
     then AudioPayload to_number
            (fmt_opt (R2_ENDPOINT_URL_PUBLIC c) ++ "/whatsapp_audios/" ++ to_number
             ++ "/tts/whatsapp_tts_" ++ hex ++ ".ogg")
     else TextPayload to_number text)).
Proof.
  intros Ht Hp. unfold send_whatsapp_response, generate_speech_from_text, upload_audio_bytes_to_r2.
  rewrite Ht, Hp. cbn [negb orb].
  destruct (opt_eqb (interaction_mode us) "voice"), (google_tts_client c), (s3_client c),
    (truthy (R2_ENDPOINT_URL_PUBLIC c)), (truthy synthesized), (io_upload_ok x);
    cbn [andb negb orb]; rewrite ?truthy_url; reflexivity.
Qed.

(** With both credentials set and a session, [send_whatsapp_response]
    posts exactly one payload to [to_number]: an audio link under
    [whatsapp_audios/<to_number>/tts/] when the session is in voice mode,
    speech synthesis and R2 are configured, the synthesis returns audio and
    the upload succeeds; the text itself otherwise. *)
Theorem send_response_payload (c : caps) (cred : wa_credentials) (x : io)
    (synthesized : option string) (hex to_number : string) (us : session) (text : string) :
  truthy (WHATSAPP_ACCESS_TOKEN cred) = true ->
  truthy (WHATSAPP_PHONE_NUMBER_ID cred) = true ->
  send_whatsapp_response c cred x synthesized hex to_number (Some us) text =
  Ok (Some
    (if opt_eqb (interaction_mode us) "voice" && google_tts_client c && s3_client c
        && truthy (R2_ENDPOINT_URL_PUBLIC c) && truthy synthesized && io_upload_ok x
     then AudioPayload to_number
            (fmt_opt (R2_ENDPOINT_URL_PUBLIC c) ++ "/whatsapp_audios/" ++ to_number
             ++ "/tts/whatsapp_tts_" ++ hex ++ ".ogg")
     else TextPayload to_number text)).
Proof.
  intros Ht Hp. unfold send_whatsapp_response, generate_speech_from_text, upload_audio_bytes_to_r2.
  rewrite Ht, Hp. cbn [negb orb].
  destruct (opt_eqb (interaction_mode us) "voice"), (google_tts_client c), (s3_client c),
    (truthy (R2_ENDPOINT_URL_PUBLIC c)), (truthy synthesized), (io_upload_ok x);
    cbn [andb negb orb]; rewrite ?truthy_url; reflexivity.
Qed.

(** Without one of the two credentials nothing is posted, for any session,
    also the empty one. *)
Lemma send_without_credentials (c : caps) (cred : wa_credentials) (x : io)
    (synthesized : option string) (hex to_number : string) (us : option session) (text : string) :
  truthy (WHATSAPP_ACCESS_TOKEN cred) = false \/ truthy (WHATSAPP_PHONE_NUMBER_ID cred) = false ->
  send_whatsapp_response c cred x synthesized hex to_number us text = Ok None.
Proof.
  intros [H|H]; unfold send_whatsapp_response; rewrite H; cbn [negb orb]; [reflexivity|].
  rewrite orb_true_r. reflexivity.
Qed.

Lemma send_some_session (c : caps) (cred : wa_credentials) (x : io)
    (synthesized : option string) (hex to_number : string) (us : session) (text : string) :
  truthy (WHATSAPP_ACCESS_TOKEN cred) = true ->
  truthy (WHATSAPP_PHONE_NUMBER_ID cred) = true ->
  exists p, send_whatsapp_response c cred x synthesized hex to_number (Some us) text = Ok (Some p)
    /\ payload_to p = to_number
    /\ (forall b, p = TextPayload to_number b -> b = text).
Proof.
  intros Ht Hp. rewrite send_payload_eq by assumption.
  eexists; split; [reflexivity|].
  match goal with |- context [if ?b then _ else _] => destruct b end;
    split; try reflexivity; intros b Hb; [discriminate Hb | injection Hb as <-; reflexivity].
Qed.

(** With both credentials set, handling an incoming message posts exactly
    one payload, to the sender; sent as text it carries the reply of
    [process_whatsapp_message], or the generic internal-error message when
    that call raised. *)
Theorem handle_replies_once (c : caps) (cred : wa_credentials) (x : io)
    (synth : string -> option string) (hex1 hex2 : string) (store : gmap string session)
    (from_number username : string) (user_text user_audio_media_id : option string) :
  truthy (WHATSAPP_ACCESS_TOKEN cred) = true ->
  truthy (WHATSAPP_PHONE_NUMBER_ID cred) = true ->
  exists p,
    fst (handle_incoming_whatsapp_message c cred x synth hex1 hex2 store
           from_number username user_text user_audio_media_id) = [p]
    /\ payload_to p = from_number
    /\ (forall b, p = TextPayload from_number b ->
          b = match fst (process_whatsapp_message c x store from_number username
                           user_text user_audio_media_id) with
              | Ok (response_text, _) => response_text
              | Raise _ => internal_error_msg
              end).
Proof.
  intros Ht Hp. unfold handle_incoming_whatsapp_message.
  destruct (process_store_shape c x store from_number username user_text user_audio_media_id)
    as [[[s Hk] Hst] | [s' Hst]];
  destruct (process_whatsapp_message c x store from_number username user_text user_audio_media_id)
    as [res store'] eqn:Hpr; cbn [snd] in Hst; subst store'; cbn [fst];
  [rewrite Hk | rewrite lookup_insert_eq];
  destruct res as [[r s0]|e];
  match goal with
  | |- context [send_whatsapp_response c cred x ?sy ?h from_number (Some ?u) ?t] =>
      destruct (send_some_session c cred x sy h from_number u t Ht Hp) as (p & -> & Hto & Hb)
  end; exists p; repeat split; assumption.
Qed.

(** Without one of the two credentials, handling a message posts nothing. *)
Theorem handle_without_credentials (c : caps) (cred : wa_credentials) (x : io)
    (synth : string -> option string) (hex1 hex2 : string) (store : gmap string session)
    (from_number username : string) (user_text user_audio_media_id : option string) :
  truthy (WHATSAPP_ACCESS_TOKEN cred) = false \/ truthy (WHATSAPP_PHONE_NUMBER_ID cred) = false ->
  fst (handle_incoming_whatsapp_message c cred x synth hex1 hex2 store
         from_number username user_text user_audio_media_id) = [].
Proof.
  intros H. unfold handle_incoming_whatsapp_message.
  destruct (process_whatsapp_message c x store from_number username user_text user_audio_media_id)
    as [[[r s0]|e] store'].
  all: cbn [fst]; rewrite !send_without_credentials by exact H; reflexivity.
Qed.

(* ------------------------------------------------------------------ *)
(** ** The prompt table *)


(** Two catalog tasks never share a prompt. *)
Theorem task_prompt_injective (t1 t2 : string) :
  In t1 task_catalog -> In t2 task_catalog -> get_task_prompt t1 = get_task_prompt t2 -> t1 = t2.
Proof.
  intros H1 H2 He. cbn [task_catalog In] in H1, H2.
  repeat destruct H1 as [<-|H1]; try contradiction H1;
  repeat destruct H2 as [<-|H2]; try contradiction H2;
  first [reflexivity | vm_compute in He; discriminate He].
Qed.

Lemma task_prompt_injective_witness :
  In "vogal_a" task_catalog /\ get_task_prompt "vogal_a" = get_task_prompt "vogal_a" /\ "vogal_a" = "vogal_a".
Proof.
  split; [cbn; tauto|]. split; [reflexivity|].
  apply task_prompt_injective; [cbn; tauto | cbn; tauto | reflexivity].
Defined.

(* ------------------------------------------------------------------ *)
(** ** Concrete runs *)

Definition sample_cred : wa_credentials := mkCredentials (Some "EAAG-token") (Some "1234567890").
Definition no_token_cred : wa_credentials := mkCredentials None (Some "1234567890").

Lemma state_key_injective_witness :
  get_user_state_key "whatsapp" sample_user = get_user_state_key "whatsapp" sample_user
  /\ sample_user = sample_user.
Proof.
  split; [reflexivity|].
  exact (state_key_injective "whatsapp" sample_user sample_user eq_refl).
Defined.

Lemma send_response_payload_witness :
  truthy (WHATSAPP_ACCESS_TOKEN sample_cred) = true
  /\ truthy (WHATSAPP_PHONE_NUMBER_ID sample_cred) = true
  /\ exists p, send_whatsapp_response sample_caps sample_cred sample_io (Some "OggS") "abc123"
                 sample_user (Some (init_user_state sample_user sample_user)) "Oi" = Ok (Some p).
Proof.
  split; [reflexivity|]. split; [reflexivity|].
  eexists. apply send_response_payload; reflexivity.
Defined.

Lemma handle_replies_once_witness :
  truthy (WHATSAPP_ACCESS_TOKEN sample_cred) = true
  /\ truthy (WHATSAPP_PHONE_NUMBER_ID sample_cred) = true
  /\ exists p, fst (handle_incoming_whatsapp_message sample_caps sample_cred sample_io
                      (fun _ => Some "OggS") "abc123" "def456" ∅ sample_user sample_user
                      (Some "oi") None) = [p].
Proof.
  split; [reflexivity|]. split; [reflexivity|].
  destruct (handle_replies_once sample_caps sample_cred sample_io (fun _ => Some "OggS")
              "abc123" "def456" ∅ sample_user sample_user (Some "oi") None eq_refl eq_refl)
    as (p & Hp & _).
  exists p. exact Hp.
Defined.

Lemma handle_without_credentials_witness :
  (truthy (WHATSAPP_ACCESS_TOKEN no_token_cred) = false
   \/ truthy (WHATSAPP_PHONE_NUMBER_ID no_token_cred) = false)
  /\ fst (handle_incoming_whatsapp_message sample_caps no_token_cred sample_io
            (fun _ => Some "OggS") "abc123" "def456" ∅ sample_user sample_user
            (Some "oi") None) = [].
Proof.
  split; [left; reflexivity|].
  apply handle_without_credentials. left. reflexivity.
Defined.
